(** * UnixHostDuino: the host run loop and the terminal life cycle

    A shallow embedding of [src/Arduino.cpp]: the two clock readers
    [millis] and [micros], the raw-mode controller ([enableRawMode],
    [disableRawMode], [die]), the Ctrl-C handler [handleControlC] and
    the scheduler [__main].

    The C code works on a process: two file-scope variables, the
    controlling terminal behind [STDIN_FILENO], the [atexit] list and
    the [SIGINT] disposition.  All of that is one record, [world], and
    every C function is a computation in a small monad over it whose
    results tell a normal return from a call of [exit], a crash, and a
    service loop that is still going round.  Every library call leaves
    an [event] in the world's trace, so that "was attempted", "exactly
    once" and "in this order" are statements about lists. *)

From Stdlib Require Import ZArith Lia Bool List.
From stdpp Require Import base numbers list strings.
From Stdlib Require Import Strings.Byte.

Local Open Scope Z_scope.

(** ** <termios.h> *)

(** [struct termios] with the members POSIX requires.  Members a host
    adds (line discipline, speeds) are copied by the structure
    assignment in [enableRawMode] and touched nowhere, like the flag
    words below outside the named bits. *)
Record termios : Type := Termios {
  c_iflag : Z;
  c_oflag : Z;
  c_cflag : Z;
  c_lflag : Z;
  c_cc : list Z
}.

(** The macros of <termios.h> the source names.  Their values belong to
    the host, not to the repository, so the code is embedded over an
    arbitrary assignment and [linux_termios_h] is one instance. *)
Class termios_h : Type := {
  INPCK : Z;
  ISTRIP : Z;
  IXON : Z;
  OPOST : Z;
  ONLCR : Z;
  CS8 : Z;
  ISIG : Z;
  ICANON : Z;
  IEXTEN : Z;
  VMIN : nat;
  VTIME : nat
}.

(** The values of Linux (asm-generic/termbits.h). *)
Definition linux_termios_h : termios_h := {|
  INPCK := 16;
  ISTRIP := 32;
  IXON := 1024;
  OPOST := 1;
  ONLCR := 4;
  CS8 := 48;
  ISIG := 1;
  ICANON := 2;
  IEXTEN := 32768;
  VMIN := 6%nat;
  VTIME := 5%nat
|}.

(** [tcflag_t] is a 32-bit unsigned integer, [unsigned long] a 64-bit
    one (LP64 hosts). *)
Definition wrap32 (x : Z) : Z := x mod 2 ^ 32.
Definition wrap64 (x : Z) : Z := x mod 2 ^ 64.

(** ** The process *)

(** The functions of this file that the C library is handed a pointer
    to: [atexit(disableRawMode)] and [signal(SIGINT, handleControlC)]. *)
Inductive exit_fn : Type := FnDisableRawMode.
Inductive sig_fn : Type := FnHandleControlC.

Inductive event : Type :=
| EIsatty (r : bool)
| ETcgetattr (rc : Z)
| ETcsetattr (t : termios) (rc : Z)
| EPerror (s : string)
| EExit (status : Z)
| ESignal (h : sig_fn)
| EAtexit (f : exit_fn)
| ERead (r : option byte)
| EInsertChar (c : byte)
| ESetup
| ELoop
| EUsleep (us : Z).

Record world : Type := World {
  (* the host *)
  tty : bool;                    (* isatty(STDIN_FILENO) *)
  term : termios;                (* the settings of the terminal itself *)
  faults : list bool;            (* does the next tcgetattr/tcsetattr fail? *)
  stdin : list (option byte);    (* what each read(STDIN_FILENO, &c, 1) delivers *)
  (* the file-scope variables *)
  orig_termios : termios;
  inRawMode : bool;
  (* the C library *)
  sigint : option sig_fn;
  atexit_fns : list exit_fn;     (* last registered first *)
  trace : list event
}.

Definition log (e : event) (w : world) : world :=
  World (tty w) (term w) (faults w) (stdin w) (orig_termios w) (inRawMode w)
        (sigint w) (atexit_fns w) (trace w ++ [e]).
Definition set_term (t : termios) (w : world) : world :=
  World (tty w) t (faults w) (stdin w) (orig_termios w) (inRawMode w)
        (sigint w) (atexit_fns w) (trace w).
Definition set_faults (f : list bool) (w : world) : world :=
  World (tty w) (term w) f (stdin w) (orig_termios w) (inRawMode w)
        (sigint w) (atexit_fns w) (trace w).
Definition set_stdin (i : list (option byte)) (w : world) : world :=
  World (tty w) (term w) (faults w) i (orig_termios w) (inRawMode w)
        (sigint w) (atexit_fns w) (trace w).
Definition set_orig_termios (t : termios) (w : world) : world :=
  World (tty w) (term w) (faults w) (stdin w) t (inRawMode w)
        (sigint w) (atexit_fns w) (trace w).
Definition set_inRawMode (b : bool) (w : world) : world :=
  World (tty w) (term w) (faults w) (stdin w) (orig_termios w) b
        (sigint w) (atexit_fns w) (trace w).
Definition set_sigint (h : option sig_fn) (w : world) : world :=
  World (tty w) (term w) (faults w) (stdin w) (orig_termios w) (inRawMode w)
        h (atexit_fns w) (trace w).
Definition set_atexit_fns (fs : list exit_fn) (w : world) : world :=
  World (tty w) (term w) (faults w) (stdin w) (orig_termios w) (inRawMode w)
        (sigint w) fs (trace w).

(** Zero-initialised static storage. *)
Definition zero_termios : termios := Termios 0 0 0 0 [].

(** The process as [main] finds it: [inRawMode = false], nothing
    registered, nothing traced. *)
Definition boot (t : bool) (settings : termios) (fl : list bool)
    (input : list (option byte)) : world :=
  World t settings fl input zero_termios false None [] [].

(** How a C function call ends. *)
Inductive outcome (A : Type) : Type :=
| Ret (a : A) (w : world)        (* returned to its caller *)
| Exit (status : Z) (w : world)  (* called exit(status) *)
| Crash (w : world)              (* jumped through a null function address *)
| Running (w : world).           (* still inside while (true) *)
Arguments Ret {A} a w.
Arguments Exit {A} status w.
Arguments Crash {A} w.
Arguments Running {A} w.

Definition world_of {A} (o : outcome A) : world :=
  match o with Ret _ w | Exit _ w | Crash w | Running w => w end.

Definition M (A : Type) : Type := world -> outcome A.

#[export] Instance M_ret : MRet M := fun A a w => Ret a w.
#[export] Instance M_bind : MBind M := fun A B k m w =>
  match m w with
  | Ret a w' => k a w'
  | Exit s w' => Exit s w'
  | Crash w' => Crash w'
  | Running w' => Running w'
  end.

Definition get {A} (f : world -> A) : M A := fun w => Ret (f w) w.
Definition modify (f : world -> world) : M unit := fun w => Ret tt (f w).
Definition emit (e : event) : M unit := modify (log e).

(** ** The library calls *)

Definition isatty : M bool :=
  t ← get tty; emit (EIsatty t);; mret t.

(** The next terminal call fails when the head of [faults] says so; an
    exhausted list means success. *)
Definition next_rc : M Z := fun w =>
  Ret (if hd false (faults w) then -1 else 0) (set_faults (tl (faults w)) w).

(** [tcgetattr(STDIN_FILENO, p)]: on success the terminal's settings
    are stored through [p], here a setter. *)
Definition tcgetattr (store : termios -> world -> world) : M Z :=
  rc ← next_rc;
  emit (ETcgetattr rc);;
  (if rc =? -1 then mret tt else t ← get term; modify (store t));;
  mret rc.

(** [tcsetattr(STDIN_FILENO, TCSAFLUSH, &t)]: on success the terminal
    has the settings [t]; a failed call changes nothing. *)
Definition tcsetattr (t : termios) : M Z :=
  rc ← next_rc;
  emit (ETcsetattr t rc);;
  (if rc =? -1 then mret tt else modify (set_term t));;
  mret rc.

Definition perror (s : string) : M unit := emit (EPerror s).

Definition exit {A} (status : Z) : M A := fun w => Exit status (log (EExit status) w).

(** [read(STDIN_FILENO, &c, 1)] with [c] holding [init]: a delivered
    byte is stored in [c], otherwise [c] keeps its value.  The head of
    [stdin] is what this call delivers; an exhausted list delivers
    nothing. *)
Definition read (init : byte) : M byte := fun w =>
  let r := hd None (stdin w) in
  Ret (default init r) (log (ERead r) (set_stdin (tl (stdin w)) w)).

Definition usleep (us : Z) : M unit := emit (EUsleep us).

(** [Serial.insertChar(c)]: the collaborator is outside the file; the
    call is what is observed. *)
Definition Serial_insertChar (c : byte) : M unit := emit (EInsertChar c).

(** ** Arduino methods emulated in Unix *)

(** [usleep(ms * 1000)]: the product is an [unsigned long], the
    parameter of [usleep] a 32-bit [useconds_t]. *)
Definition delay (ms : Z) : M unit := usleep (wrap32 (wrap64 (ms * 1000))).

Definition yield : M unit := usleep 1000.

Record timespec : Type := Timespec { tv_sec : Z; tv_nsec : Z }.

(** [clock_gettime(CLOCK_MONOTONIC, &spec)] on a local [spec] that was
    not initialised: [clk] is what the clock delivers ([None]: the call
    fails and writes nothing), [junk] is what the stack slot held.  The
    return value of the call is not looked at. *)
Definition clock_gettime (clk : option timespec) (junk : timespec) : timespec :=
  default junk clk.

(** [spec.tv_sec * 1000U + spec.tv_nsec / 1000000UL] as [unsigned long]:
    the quotient is taken on [tv_nsec] converted to [unsigned long]. *)
Definition millis (clk : option timespec) (junk : timespec) : M Z :=
  let spec := clock_gettime clk junk in
  let ms := wrap64 (tv_sec spec * 1000 + wrap64 (tv_nsec spec) / 1000000) in
  mret ms.

(** [spec.tv_sec * 1000000UL + spec.tv_nsec / 1000U] as [unsigned long]:
    here the quotient is a [long] division, truncating. *)
Definition micros (clk : option timespec) (junk : timespec) : M Z :=
  let spec := clock_gettime clk junk in
  let us := wrap64 (wrap64 (tv_sec spec) * 1000000 + Z.quot (tv_nsec spec) 1000) in
  mret us.

(** ** Unix compatibility: raw mode and Ctrl-C *)

Definition die {A} (s : string) : M A := perror s;; exit 1.

(** A call through a null function address. *)
Definition crash {A} : M A := fun w => Crash w.

Section Controller.
Context {H : termios_h}.

Definition disableRawMode : M unit :=
  t ← isatty;
  if negb t then mret tt else
  r ← get inRawMode;
  if negb r then mret tt else
  o ← get orig_termios;
  rc ← tcsetattr o;
  if rc =? -1 then
    modify (set_inRawMode false);;
    die "disableRawMode(): tcsetattr() failure"
  else mret tt.

(** The body of [enableRawMode] between the two terminal calls. *)
Definition make_raw (orig : termios) : termios :=
  let raw := orig in
  let iflag := wrap32 (Z.land (c_iflag raw) (Z.lnot (Z.lor INPCK (Z.lor ISTRIP IXON)))) in
  let oflag := wrap32 (Z.lor (c_oflag raw) (Z.lor OPOST ONLCR)) in
  let cflag := wrap32 (Z.lor (c_cflag raw) CS8) in
  let lflag := wrap32 (Z.land (c_lflag raw) (Z.lnot (Z.lor ICANON IEXTEN))) in
  let cc := <[VTIME := 0]> (<[VMIN := 0]> (c_cc raw)) in
  Termios iflag oflag cflag lflag cc.

Definition enableRawMode : M unit :=
  t ← isatty;
  if negb t then mret tt else
  rc ← tcgetattr set_orig_termios;
  (if rc =? -1 then die "enableRawMode(): tcgetattr() failure" else mret tt);;
  o ← get orig_termios;
  let raw := make_raw o in
  rc ← tcsetattr raw;
  (if rc =? -1 then die "enableRawMode(): tcsetattr() failure" else mret tt);;
  modify (set_inRawMode true).

Definition handleControlC : M unit :=
  t ← isatty;
  if negb t then mret tt else
  r ← get inRawMode;
  (if (r : bool) then
     o ← get orig_termios;
     rc ← tcsetattr o;
     (if rc =? -1 then perror "handleControlC(): tcsetattr() failure" else mret tt);;
     modify (set_inRawMode false)
   else mret tt);;
  exit 1.

(** ** Main loop *)

(** [setup] and [loop] are declared weak and defined by the user's
    program, or not at all: [None] is the undefined weak symbol, whose
    address is null.  The calls in [__main] test nothing. *)
Definition callback : Type := M unit.

Definition call_weak (e : event) (f : option callback) : M unit :=
  match f with
  | Some body => emit e;; body
  | None => crash
  end.

Definition signal (h : sig_fn) : M unit :=
  emit (ESignal h);; modify (set_sigint (Some h)).

Definition atexit (f : exit_fn) : M unit :=
  emit (EAtexit f);; fs ← get atexit_fns; modify (set_atexit_fns (f :: fs)).

(** One turn of [while (true)]. *)
Definition service (loop : option callback) : M unit :=
  c ← read "000"%byte;
  (if Byte.eqb c "000"%byte then mret tt else Serial_insertChar c);;
  call_weak ELoop loop;;
  yield.

(** The loop has no [break] and no [return]: after [n] turns it is
    [Running]. *)
Fixpoint service_loop (loop : option callback) (n : nat) : M unit :=
  match n with
  | O => fun w => Running w
  | S n' => service loop;; service_loop loop n'
  end.

Definition __main (setup loop : option callback) (n : nat) : M unit :=
  signal FnHandleControlC;;
  atexit FnDisableRawMode;;
  enableRawMode;;
  call_weak ESetup setup;;
  service_loop loop n.

(** ** The process around the functions *)

Definition run_exit_fn (f : exit_fn) : M unit :=
  match f with FnDisableRawMode => disableRawMode end.

Definition run_sig_fn (h : sig_fn) : M unit :=
  match h with FnHandleControlC => handleControlC end.

(** What becomes of the process. *)
Inductive fate : Type :=
| Alive (w : world)
| Exited (status : Z) (w : world)
| Killed (w : world).

(** [exit(status)]: the registered functions run, last registered
    first, each taken off the list before it is called (glibc); one
    that calls [exit] itself hands its status to the rest. *)
Fixpoint run_atexit (fs : list exit_fn) (status : Z) (w : world) : fate :=
  match fs with
  | [] => Exited status w
  | f :: rest =>
      match run_exit_fn f (set_atexit_fns rest w) with
      | Ret _ w' | Running w' => run_atexit rest status w'
      | Exit s w' => run_atexit rest s w'
      | Crash w' => Killed w'
      end
  end.

Definition settle (o : outcome unit) : fate :=
  match o with
  | Ret _ w | Running w => Alive w
  | Exit s w => run_atexit (atexit_fns w) s w
  | Crash w => Killed w
  end.

(** SIGINT arrives: the installed handler runs; with none installed the
    default action kills the process. *)
Definition deliver_sigint (w : world) : fate :=
  match sigint w with
  | Some h => settle (run_sig_fn h w)
  | None => Killed w
  end.

(** ** Reading traces *)

Definition is_tcsetattr (e : event) : bool :=
  match e with ETcsetattr _ _ => true | _ => false end.
Definition is_tcgetattr (e : event) : bool :=
  match e with ETcgetattr _ => true | _ => false end.
Definition is_terminal_call (e : event) : bool :=
  is_tcgetattr e || is_tcsetattr e.
Definition is_insertChar (e : event) : bool :=
  match e with EInsertChar _ => true | _ => false end.

Definition count (p : event -> bool) (evs : list event) : nat :=
  length (filter (fun e => p e = true) evs).

(** The events a computation added to the trace. *)
Definition since (w w' : world) : list event :=
  drop (length (trace w)) (trace w').

(** The next [n] terminal calls succeed. *)
Definition succeed (n : nat) (w : world) : bool :=
  forallb negb (take n (faults w)).

(** A sequence of calls of the two controller operations. *)
Inductive call : Type := CEnable | CDisable.

Definition run_call (c : call) : M unit :=
  match c with CEnable => enableRawMode | CDisable => disableRawMode end.

Fixpoint run_calls (cs : list call) : M unit :=
  match cs with
  | [] => mret tt
  | c :: cs' => run_call c;; run_calls cs'
  end.

(** A user callback with an empty body. *)
Definition skip : callback := mret tt.

Definition log_all (evs : list event) (w : world) : world :=
  World (tty w) (term w) (faults w) (stdin w) (orig_termios w) (inRawMode w)
        (sigint w) (atexit_fns w) (trace w ++ evs).

(** A user callback that returns and, as far as this file's state
    goes, only adds events of its own, none of them an insertion into
    the serial buffer. *)
Definition quiet (body : callback) : Prop :=
  forall w, exists evs,
    body w = Ret tt (log_all evs w) /\ filter (fun e => is_insertChar e = true) evs = [].

(** The bytes the first [n] reads deliver. *)
Definition delivered (n : nat) (input : list (option byte)) : list byte :=
  omap id (take n input).

Definition nonnull (c : byte) : bool := negb (Byte.eqb c "000"%byte).

(** The events of [n] turns of the service loop with callbacks that
    have empty bodies, on the input [input]. *)
Fixpoint turns (n : nat) (input : list (option byte)) : list event :=
  match n with
  | O => []
  | S n' =>
      let r := hd None input in
      let c := default "000"%byte r in
      [ERead r] ++ (if Byte.eqb c "000"%byte then [] else [EInsertChar c])
        ++ [ELoop; EUsleep 1000] ++ turns n' (tl input)
  end.


(** The change of configuration in the words of the specification:
    which bits are off, which are on, which are as they were, and what
    the two control characters that govern [read] hold.  The interrupt
    key's bit [ISIG] is among those left as they were. *)
Record raw_of (orig raw : termios) : Prop := {
  iflag_off : forall i, Z.testbit (Z.lor INPCK (Z.lor ISTRIP IXON)) i = true ->
      Z.testbit (c_iflag raw) i = false;
  iflag_kept : forall i, 0 <= i < 32 ->
      Z.testbit (Z.lor INPCK (Z.lor ISTRIP IXON)) i = false ->
      Z.testbit (c_iflag raw) i = Z.testbit (c_iflag orig) i;
  oflag_on : forall i, 0 <= i < 32 -> Z.testbit (Z.lor OPOST ONLCR) i = true ->
      Z.testbit (c_oflag raw) i = true;
  oflag_kept : forall i, 0 <= i < 32 -> Z.testbit (Z.lor OPOST ONLCR) i = false ->
      Z.testbit (c_oflag raw) i = Z.testbit (c_oflag orig) i;
  cflag_on : forall i, 0 <= i < 32 -> Z.testbit CS8 i = true ->
      Z.testbit (c_cflag raw) i = true;
  cflag_kept : forall i, 0 <= i < 32 -> Z.testbit CS8 i = false ->
      Z.testbit (c_cflag raw) i = Z.testbit (c_cflag orig) i;
  lflag_off : forall i, Z.testbit (Z.lor ICANON IEXTEN) i = true ->
      Z.testbit (c_lflag raw) i = false;
  lflag_kept : forall i, 0 <= i < 32 -> Z.testbit (Z.lor ICANON IEXTEN) i = false ->
      Z.testbit (c_lflag raw) i = Z.testbit (c_lflag orig) i;
  lflag_isig : forall i, 0 <= i < 32 -> Z.testbit ISIG i = true ->
      Z.testbit (c_lflag raw) i = Z.testbit (c_lflag orig) i;
  cc_vmin : c_cc raw !! VMIN = Some 0;
  cc_vtime : c_cc raw !! VTIME = Some 0;
  cc_kept : forall j, j <> VMIN -> j <> VTIME -> c_cc raw !! j = c_cc orig !! j
}.

(** What the host has to grant for that: the interrupt bit is not one
    of the bits cleared, and the two control characters exist. *)
Definition sane (orig : termios) : Prop :=
  Z.land ISIG (Z.lor ICANON IEXTEN) = 0 /\
  (VMIN < length (c_cc orig))%nat /\ (VTIME < length (c_cc orig))%nat.

(** The four flag words fit [tcflag_t]. *)
Definition fits (t : termios) : Prop :=
  0 <= c_iflag t < 2 ^ 32 /\ 0 <= c_oflag t < 2 ^ 32 /\
  0 <= c_cflag t < 2 ^ 32 /\ 0 <= c_lflag t < 2 ^ 32.

(** The world [enableRawMode] leaves on a terminal whose two calls
    succeed, and the one [disableRawMode] leaves when its call does. *)
Definition enabled (w : world) : world :=
  World true (make_raw (term w)) (tl (tl (faults w))) (stdin w) (term w) true
        (sigint w) (atexit_fns w)
        (trace w ++ [EIsatty true; ETcgetattr 0; ETcsetattr (make_raw (term w)) 0]).

Definition restored (w : world) : world :=
  World true (orig_termios w) (tl (faults w)) (stdin w) (orig_termios w) (inRawMode w)
        (sigint w) (atexit_fns w)
        (trace w ++ [EIsatty true; ETcsetattr (orig_termios w) 0]).

(** Whether a call ended the process abnormally. *)
Definition aborts {A} (o : outcome A) : Prop :=
  match o with Exit _ _ | Crash _ => True | _ => False end.

End Controller.

(** ** A terminal to run on *)

(** The settings of a Linux terminal in cooked mode, as [stty] shows
    them: ICRNL IXON; OPOST ONLCR; B38400 CS8 CREAD; ISIG ICANON IEXTEN
    and the echo bits; VMIN 1, VTIME 0. *)
Definition cooked : termios :=
  Termios 1280 5 191 35387
    [3; 28; 127; 21; 4; 0; 1; 0; 17; 19; 26; 0; 18; 15; 23; 22;
     0; 0; 0; 0; 0; 0; 0; 0; 0; 0; 0; 0; 0; 0; 0; 0].

(** A process started on that terminal, one started with its input
    redirected, and one on the terminal with keys waiting: A, nothing,
    NUL, B. *)
Definition on_terminal : world := boot true cooked [] [].
Definition on_pipe : world := boot false cooked [] [].
Definition typing : world :=
  boot true cooked [] [Some "A"%byte; None; Some "000"%byte; Some "B"%byte].

(** The same processes one turn into the service loop of [__main], on
    Linux, with callbacks that do nothing. *)
Definition serving (w : world) : world :=
  world_of (@__main linux_termios_h (Some skip) (Some skip) 1 w).

(** A process in its service loop, in raw mode, whose next terminal
    call fails. *)
Definition failing : world :=
  serving (boot true cooked [false; false; true] []).

(** ** The rest of the file *)

(** The pin functions: two empty bodies and a constant. *)
Definition digitalWrite (pin val : Z) : M unit := mret tt.
Definition digitalRead (pin : Z) : M Z := mret 0.
Definition pinMode (pin mode : Z) : M unit := mret tt.

Section Program.
Context {H : termios_h}.

(** [main] hands its arguments, which [__main] does not look at, to
    [__main]. *)
Definition main (setup loop : option callback) (n : nat) : M unit :=
  __main setup loop n.

(** The world after the two registrations [__main] starts with. *)
Definition registered (w : world) : world :=
  World (tty w) (term w) (faults w) (stdin w) (orig_termios w) (inRawMode w)
        (Some FnHandleControlC) (FnDisableRawMode :: atexit_fns w)
        (trace w ++ [ESignal FnHandleControlC; EAtexit FnDisableRawMode]).



(** While the flag is up the terminal has the saved settings or their
    raw form. *)
Definition consistent (w : world) : Prop :=
  inRawMode w = true ->
  term w = make_raw (orig_termios w) \/ term w = orig_termios w.

End Program.

Definition is_exit (e : event) : bool :=
  match e with EExit _ => true | _ => false end.
Definition is_perror (e : event) : bool :=
  match e with EPerror _ => true | _ => false end.
Definition is_setup (e : event) : bool :=
  match e with ESetup => true | _ => false end.
Definition is_read (e : event) : bool :=
  match e with ERead _ => true | _ => false end.
Definition is_loop (e : event) : bool :=
  match e with ELoop => true | _ => false end.
Definition is_yield (e : event) : bool :=
  match e with EUsleep us => us =? 1000 | _ => false end.

(** A reading of the monotonic clock as the kernel gives it: seconds
    since boot, nanoseconds below one second.  The bound on the seconds
    (over half a million years) keeps the microseconds below 2^64. *)
Definition steady (t : timespec) : Prop :=
  0 <= tv_sec t < 2 ^ 44 /\ 0 <= tv_nsec t < 1000000000.

(** The reading in nanoseconds. *)
Definition nanos (t : timespec) : Z := tv_sec t * 1000000000 + tv_nsec t.

(** A process on the terminal whose first terminal call fails, and one
    whose second does. *)
Definition no_capture : world := boot true cooked [true] [].
Definition no_apply : world := boot true cooked [false; true] [].

(** * Properties *)

Section Properties.
Context {H : termios_h}.

(** Run a computation on a world whose fields are known. *)
Ltac exec :=
  cbv beta iota zeta delta
    [mbind M_bind mret M_ret isatty get modify emit next_rc tcgetattr tcsetattr
     perror exit die crash read usleep yield Serial_insertChar
     disableRawMode enableRawMode handleControlC call_weak signal atexit service
     run_exit_fn run_sig_fn run_call skip
     log set_term set_faults set_stdin set_orig_termios set_inRawMode
     set_sigint set_atexit_fns
     tty term faults stdin orig_termios inRawMode sigint atexit_fns trace
     negb hd tl Z.eqb Pos.eqb default from_option id].

Ltac flat := rewrite <- ?app_assoc; cbn [app].

(** ** Traces *)

Lemma since_app (w w' : world) (evs : list event) :
  trace w' = trace w ++ evs -> since w w' = evs.
Proof.
  intros E. unfold since. rewrite E. apply drop_app_length.
Qed.

Lemma count_app (p : event -> bool) (xs ys : list event) :
  count p (xs ++ ys) = (count p xs + count p ys)%nat.
Proof.
  unfold count. rewrite filter_app. apply length_app.
Qed.

Lemma count_repeat_isatty (p : event -> bool) (b : bool) (n : nat) :
  p (EIsatty b) = false -> count p (repeat (EIsatty b) n) = 0%nat.
Proof.
  intros Hp. induction n as [|n IH]; [reflexivity|].
  unfold count in *. cbn [repeat]. rewrite filter_cons.
  destruct (decide (p (EIsatty b) = true)) as [E|E]; [congruence|exact IH].
Qed.

(** ** The controller off a terminal *)

Lemma disableRawMode_notty (w : world) :
  tty w = false -> disableRawMode w = Ret tt (log (EIsatty false) w).
Proof.
  intros E. destruct w; cbn in E; subst. reflexivity.
Qed.

Lemma enableRawMode_notty (w : world) :
  tty w = false -> enableRawMode w = Ret tt (log (EIsatty false) w).
Proof.
  intros E. destruct w; cbn in E; subst. reflexivity.
Qed.

Lemma handleControlC_notty (w : world) :
  tty w = false -> handleControlC w = Ret tt (log (EIsatty false) w).
Proof.
  intros E. destruct w; cbn in E; subst. reflexivity.
Qed.

Lemma log_all_log (evs : list event) (e : event) (w : world) :
  log_all evs (log e w) = log_all (e :: evs) w.
Proof.
  unfold log_all, log; cbn. f_equal. rewrite <- app_assoc. reflexivity.
Qed.

Lemma log_all_nil (w : world) : log_all [] w = w.
Proof.
  destruct w; unfold log_all; cbn. rewrite app_nil_r. reflexivity.
Qed.

Lemma run_calls_notty (cs : list call) (w : world) :
  tty w = false ->
  run_calls cs w = Ret tt (log_all (repeat (EIsatty false) (length cs)) w).
Proof.
  revert w. induction cs as [|c cs IH]; intros w E.
  - cbn. rewrite log_all_nil. reflexivity.
  - assert (Hc : run_call c w = Ret tt (log (EIsatty false) w)).
    { destruct c; [apply enableRawMode_notty|apply disableRawMode_notty]; exact E. }
    change (run_calls (c :: cs) w)
      with (match run_call c w with
            | Ret a w' => run_calls cs w'
            | Exit s w' => Exit s w'
            | Crash w' => Crash w'
            | Running w' => Running w'
            end).
    rewrite Hc, IH by exact E. rewrite log_all_log. reflexivity.
Qed.

(** C4. Off a terminal, any sequence of [enableRawMode] and
    [disableRawMode] calls returns having asked [isatty] once per call
    and nothing else: no [tcgetattr], no [tcsetattr], and the flag, the
    saved settings and the terminal are what they were. *)
Theorem C4_calls_off_a_terminal_do_nothing (cs : list call) (w : world) :
  tty w = false ->
  exists w', run_calls cs w = Ret tt w' /\
    since w w' = repeat (EIsatty false) (length cs) /\
    count is_terminal_call (since w w') = 0%nat /\
    inRawMode w' = inRawMode w /\
    orig_termios w' = orig_termios w /\
    term w' = term w /\
    faults w' = faults w.
Proof.
  intros E. eexists. split; [apply run_calls_notty; exact E|].
  assert (S : since w (log_all (repeat (EIsatty false) (length cs)) w)
              = repeat (EIsatty false) (length cs)) by (apply since_app; reflexivity).
  rewrite S. repeat split. apply count_repeat_isatty. reflexivity.
Qed.

(** ** The controller on a terminal *)

Lemma disableRawMode_idle (w : world) :
  tty w = true -> inRawMode w = false ->
  disableRawMode w = Ret tt (log (EIsatty true) w).
Proof.
  intros E1 E2. destruct w; cbn in E1, E2; subst. reflexivity.
Qed.

Lemma disableRawMode_ok (w : world) :
  tty w = true -> inRawMode w = true -> hd false (faults w) = false ->
  disableRawMode w = Ret tt (restored w).
Proof.
  intros E1 E2 E3. destruct w as [t tm fl i o r s fs tr]; cbn in E1, E2, E3; subst.
  destruct fl as [|[] fl]; try discriminate;
    unfold restored; exec; flat; reflexivity.
Qed.

Lemma enableRawMode_ok (w : world) :
  tty w = true -> succeed 2 w = true ->
  enableRawMode w = Ret tt (enabled w).
Proof.
  intros E1 E2. destruct w as [t tm fl i o r s fs tr]; cbn in E1; subst.
  unfold succeed in E2; cbn in E2.
  destruct fl as [|[] [|[] fl]]; cbn in E2; try discriminate;
    unfold enabled; exec; flat; reflexivity.
Qed.

Lemma disableRawMode_flag_down (w : world) :
  inRawMode w = false ->
  disableRawMode w = Ret tt (log (EIsatty (tty w)) w).
Proof.
  intros E. destruct w as [[] tm fl i o r s fs tr]; cbn in E; subst; reflexivity.
Qed.

Lemma disableRawMode_fail (w : world) :
  tty w = true -> inRawMode w = true -> hd false (faults w) = true ->
  disableRawMode w =
    die "disableRawMode(): tcsetattr() failure"
      (set_inRawMode false
         (log (ETcsetattr (orig_termios w) (-1))
            (set_faults (tl (faults w)) (log (EIsatty true) w)))).
Proof.
  intros E1 E2 E3. destruct w as [t tm fl i o r s fs tr]; cbn in E1, E2, E3; subst.
  destruct fl as [|[] fl]; try discriminate. reflexivity.
Qed.

(** ** Leaving the process *)

(** With the flag down the functions registered with [atexit] ask
    [isatty] and return: the exit status stands and the terminal is
    left alone. *)
Lemma run_atexit_flag_down (fs : list exit_fn) (status : Z) (w : world) :
  inRawMode w = false ->
  exists w', run_atexit fs status w = Exited status w' /\
    trace w' = trace w ++ repeat (EIsatty (tty w)) (length fs) /\
    term w' = term w /\ inRawMode w' = false.
Proof.
  revert w. induction fs as [|f fs IH]; intros w E.
  - exists w. cbn. rewrite app_nil_r. auto.
  - cbn [run_atexit]. destruct f. cbn [run_exit_fn].
    rewrite disableRawMode_flag_down by exact E.
    destruct (IH (log (EIsatty (tty (set_atexit_fns fs w))) (set_atexit_fns fs w)))
      as (w' & R & T & Tm & F); [exact E|].
    exists w'. split; [exact R|]. split; [|split; [exact Tm|exact F]].
    rewrite T. cbn. rewrite <- app_assoc. reflexivity.
Qed.

(** C9. On a terminal, with the flag up, when the restoring
    [tcsetattr] fails: [die] is entered with the flag already written
    to false, the call ends in [exit(1)] after the message, and the
    process leaves with status 1, the functions registered with
    [atexit] making no further attempt on the terminal. *)
Theorem C9_failed_restore_clears_flag_then_dies (w : world) :
  tty w = true -> inRawMode w = true -> hd false (faults w) = true ->
  (exists w1, inRawMode w1 = false /\
     since w w1 = [EIsatty true; ETcsetattr (orig_termios w) (-1)] /\
     disableRawMode w = die "disableRawMode(): tcsetattr() failure" w1) /\
  (exists w', disableRawMode w = Exit 1 w' /\ inRawMode w' = false /\
     since w w' = [EIsatty true; ETcsetattr (orig_termios w) (-1);
                   EPerror "disableRawMode(): tcsetattr() failure"; EExit 1]) /\
  (exists w'', settle (disableRawMode w) = Exited 1 w'' /\ inRawMode w'' = false /\
     count is_tcsetattr (since w w'') = 1%nat /\ term w'' = term w).
Proof.
  intros E1 E2 E3. rewrite (disableRawMode_fail w E1 E2 E3).
  split; [|split].
  - eexists. split; [|split; [|reflexivity]]; [reflexivity|].
    apply since_app. cbn. flat. reflexivity.
  - eexists. split; [reflexivity|]. split; [reflexivity|].
    apply since_app. cbn. flat. reflexivity.
  - match goal with |- context [settle (die ?m ?x)] =>
      change (settle (die m x))
        with (run_atexit (atexit_fns w) 1 (log (EExit 1) (log (EPerror m) x)));
      destruct (run_atexit_flag_down (atexit_fns w) 1 (log (EExit 1) (log (EPerror m) x)))
        as (w'' & R & T & Tm & F); [reflexivity|]
    end.
    exists w''. split; [exact R|]. split; [exact F|]. split; [|exact Tm].
    erewrite since_app; [|rewrite T; cbn; flat; reflexivity].
    cbn [app]. change (?a :: ?b :: ?c :: ?d :: ?l) with ([a; b; c; d] ++ l).
    rewrite count_app, count_repeat_isatty by reflexivity. reflexivity.
Qed.

(** ** Ctrl-C *)

Lemma sigint_off_a_terminal (w : world) :
  tty w = false -> sigint w = Some FnHandleControlC ->
  deliver_sigint w = Alive (log (EIsatty false) w).
Proof.
  intros E1 E2. unfold deliver_sigint. rewrite E2. cbn [run_sig_fn].
  rewrite (handleControlC_notty w E1). reflexivity.
Qed.

Lemma handleControlC_raw (w : world) :
  tty w = true -> inRawMode w = true ->
  exists w', handleControlC w = Exit 1 w' /\ inRawMode w' = false /\
    term w' = (if hd false (faults w) then term w else orig_termios w) /\
    atexit_fns w' = atexit_fns w /\
    trace w' = trace w ++
      [EIsatty true; ETcsetattr (orig_termios w) (if hd false (faults w) then -1 else 0)]
      ++ (if hd false (faults w)
          then [EPerror "handleControlC(): tcsetattr() failure"] else [])
      ++ [EExit 1].
Proof.
  intros E1 E2. destruct w as [t tm fl i o r s fs tr]; cbn in E1, E2; subst.
  destruct fl as [|[] fl]; eexists; (split; [reflexivity|]);
    repeat split; cbn; flat; reflexivity.
Qed.

Lemma handleControlC_cooked (w : world) :
  tty w = true -> inRawMode w = false ->
  handleControlC w = Exit 1 (log (EExit 1) (log (EIsatty true) w)).
Proof.
  intros E1 E2. destruct w as [t tm fl i o r s fs tr]; cbn in E1, E2; subst.
  reflexivity.
Qed.

(** On a terminal the handler does what is asked of it: one attempt to
    restore when the flag is up, none when it is down, and the process
    leaves with status 1. *)
Lemma sigint_on_a_terminal (w : world) :
  tty w = true -> sigint w = Some FnHandleControlC ->
  exists w', deliver_sigint w = Exited 1 w' /\ inRawMode w' = false /\
    count is_tcsetattr (since w w') = (if inRawMode w then 1 else 0)%nat.
Proof.
  intros E1 E2. unfold deliver_sigint. rewrite E2. cbn [run_sig_fn].
  destruct (inRawMode w) eqn:R.
  - destruct (handleControlC_raw w E1 R) as (w1 & X & F & _ & A & T).
    rewrite X. cbn [settle].
    destruct (run_atexit_flag_down (atexit_fns w1) 1 w1 F) as (w' & X' & T' & _ & F').
    exists w'. split; [exact X'|]. split; [exact F'|].
    erewrite since_app; [|rewrite T', T; rewrite <- app_assoc; reflexivity].
    rewrite count_app, count_repeat_isatty by reflexivity.
    destruct (hd false (faults w)); reflexivity.
  - rewrite (handleControlC_cooked w E1 R). cbn [settle].
    destruct (run_atexit_flag_down
                (atexit_fns (log (EExit 1) (log (EIsatty true) w))) 1
                (log (EExit 1) (log (EIsatty true) w)) R) as (w' & X' & T' & _ & F').
    exists w'. split; [exact X'|]. split; [exact F'|].
    erewrite since_app; [|rewrite T'; cbn; flat; reflexivity].
    change (?a :: ?b :: ?l) with ([a; b] ++ l).
    rewrite count_app, count_repeat_isatty by reflexivity. reflexivity.
Qed.

(** ** Enabling and disabling in a row *)

Lemma bind_Ret {A B} (m : M A) (k : A -> M B) (w w' : world) (a : A) :
  m w = Ret a w' -> (m ≫= k) w = k a w'.
Proof.
  intros E. cbv beta delta [mbind M_bind]. rewrite E. reflexivity.
Qed.


Lemma succeed_S (n : nat) (w : world) :
  succeed (S n) w = true ->
  hd false (faults w) = false /\ succeed n (set_faults (tl (faults w)) w) = true.
Proof.
  unfold succeed. destruct w as [t tm fl i o r s fs tr]; cbn [faults set_faults].
  destruct fl as [|b fl]; cbn; [destruct n; auto|].
  destruct b; cbn; [discriminate|auto].
Qed.

Lemma succeed_le (n m : nat) (w : world) :
  (n <= m)%nat -> succeed m w = true -> succeed n w = true.
Proof.
  unfold succeed. generalize (faults w) as fl. revert m.
  induction n as [|n IH]; intros m fl L E; [reflexivity|].
  destruct m as [|m]; [lia|]. destruct fl as [|b fl]; [reflexivity|].
  cbn in *. apply andb_true_iff in E as [E1 E2]. rewrite E1. cbn.
  apply (IH m); [lia|exact E2].
Qed.

Lemma succeed_tl2 (n : nat) (w : world) :
  succeed (S (S n)) w = true -> succeed n (enabled w) = true.
Proof.
  intros E. apply succeed_S in E as [_ E]. apply succeed_S in E as [_ E]. exact E.
Qed.

(** C3. On a terminal, [enableRawMode] followed by [disableRawMode]:
    when the three terminal calls succeed both return and the terminal
    has the settings it had before, captured, replaced by the raw ones
    and put back; and whatever the calls do, the terminal ends with
    the settings it had unless the restoring [tcsetattr] itself
    failed. *)
Theorem C3_enable_then_disable_restores (w : world) :
  tty w = true ->
  (succeed 3 w = true ->
   exists w', (enableRawMode;; disableRawMode) w = Ret tt w' /\
     term w' = term w /\
     since w w' = [EIsatty true; ETcgetattr 0; ETcsetattr (make_raw (term w)) 0;
                   EIsatty true; ETcsetattr (term w) 0]) /\
  (term (world_of ((enableRawMode;; disableRawMode) w)) = term w \/
   In (ETcsetattr (term w) (-1))
      (since w (world_of ((enableRawMode;; disableRawMode) w)))).
Proof.
  intros E. split.
  - intros S3.
    rewrite (bind_Ret _ _ _ _ _ (enableRawMode_ok w E (succeed_le 2 3 w ltac:(lia) S3))).
    pose proof (succeed_tl2 1 w S3) as S1. apply succeed_S in S1 as [F _].
    rewrite (disableRawMode_ok (enabled w) eq_refl eq_refl F).
    eexists. split; [reflexivity|]. split; [reflexivity|].
    apply since_app. cbn. flat. reflexivity.
  - destruct w as [t tm fl i o r s fs tr]; cbn in E; subst.
    destruct fl as [|[] [|[] [|[] fl]]]; exec; cbn [world_of term];
      first [ left; reflexivity
            | right; erewrite since_app by (cbn [trace]; flat; reflexivity);
              cbn; auto 10 ].
Qed.

(** ** The raw configuration *)

Lemma testbit_wrap32 (x i : Z) :
  Z.testbit (wrap32 x) i = (i <? 32) && Z.testbit x i.
Proof.
  unfold wrap32. destruct (Z.ltb_spec i 32) as [L|L]; cbn [andb].
  - apply Z.mod_pow2_bits_low. exact L.
  - apply Z.mod_pow2_bits_high. lia.
Qed.

Lemma testbit_clear (x m i : Z) :
  Z.testbit (wrap32 (Z.land x (Z.lnot m))) i
  = (i <? 32) && Z.testbit x i && negb (Z.testbit m i).
Proof.
  rewrite testbit_wrap32, Z.land_spec. destruct (Z.neg_nonneg_cases i) as [N|N].
  - rewrite !(Z.testbit_neg_r _ i N). destruct (i <? 32); reflexivity.
  - rewrite Z.lnot_spec by exact N. rewrite andb_assoc. reflexivity.
Qed.

Lemma testbit_set (x m i : Z) :
  Z.testbit (wrap32 (Z.lor x m)) i = (i <? 32) && (Z.testbit x i || Z.testbit m i).
Proof.
  rewrite testbit_wrap32, Z.lor_spec. reflexivity.
Qed.

Lemma low_bit (i : Z) : 0 <= i < 32 -> (i <? 32) = true.
Proof. intros L. apply Z.ltb_lt. lia. Qed.

Lemma disjoint_bits (a m i : Z) :
  Z.land a m = 0 -> Z.testbit a i = true -> Z.testbit m i = false.
Proof.
  intros D A. pose proof (Z.land_spec a m i) as L.
  rewrite D, Z.bits_0, A in L. symmetry. exact L.
Qed.

Lemma make_raw_spec (orig : termios) : sane orig -> raw_of orig (make_raw orig).
Proof.
  intros (D & Lmin & Ltime). unfold make_raw. constructor; cbn [c_iflag c_oflag c_cflag c_lflag c_cc].
  - intros i B. rewrite testbit_clear, B. apply andb_false_r.
  - intros i L B. rewrite testbit_clear, B, (low_bit i L). cbn. apply andb_true_r.
  - intros i L B. rewrite testbit_set, B, (low_bit i L). cbn. apply orb_true_r.
  - intros i L B. rewrite testbit_set, B, (low_bit i L). cbn. apply orb_false_r.
  - intros i L B. rewrite testbit_set, B, (low_bit i L). cbn. apply orb_true_r.
  - intros i L B. rewrite testbit_set, B, (low_bit i L). cbn. apply orb_false_r.
  - intros i B. rewrite testbit_clear, B. apply andb_false_r.
  - intros i L B. rewrite testbit_clear, B, (low_bit i L). cbn. apply andb_true_r.
  - intros i L B. rewrite testbit_clear, (disjoint_bits _ _ i D B), (low_bit i L).
    cbn. apply andb_true_r.
  - destruct (decide (VMIN = VTIME)) as [Q|Q].
    + rewrite Q. apply list_lookup_insert_eq. rewrite length_insert. exact Ltime.
    + rewrite list_lookup_insert_ne by (intros X; apply Q; symmetry; exact X).
      apply list_lookup_insert_eq. exact Lmin.
  - apply list_lookup_insert_eq. rewrite length_insert. exact Ltime.
  - intros j J1 J2.
    rewrite list_lookup_insert_ne by (intros X; apply J2; symmetry; exact X).
    apply list_lookup_insert_ne. intros X; apply J1; symmetry; exact X.
Qed.

Lemma make_raw_fits (orig : termios) : fits (make_raw orig).
Proof.
  unfold fits, make_raw, wrap32; cbn [c_iflag c_oflag c_cflag c_lflag].
  repeat split; apply Z.mod_pos_bound; reflexivity.
Qed.

Lemma make_raw_noncanonical (t : termios) :
  Z.land (c_lflag (make_raw t)) ICANON = 0.
Proof.
  apply Z.bits_inj. intros i. rewrite Z.land_spec, Z.bits_0.
  unfold make_raw; cbn [c_lflag]. rewrite testbit_clear, Z.lor_spec.
  destruct (i <? 32), (Z.testbit (c_lflag t) i), (Z.testbit ICANON i),
    (Z.testbit IEXTEN i); reflexivity.
Qed.

(** C10. On a terminal, every call of [enableRawMode] that returns has
    stored the settings the terminal had at the call in
    [orig_termios], whatever the flag said.  So two calls in a row,
    all terminal calls succeeding, leave the raw settings of the first
    call there, and the [disableRawMode] that follows applies those:
    the terminal ends in non-canonical mode, on the raw form of the
    settings it began with, and not on the settings it began with when
    those were canonical. *)
Theorem C10_enable_overwrites_saved_settings (w : world) :
  tty w = true ->
  (forall w', enableRawMode w = Ret tt w' -> orig_termios w' = term w) /\
  (succeed 5 w = true ->
   exists w2 w3, (enableRawMode;; enableRawMode) w = Ret tt w2 /\
     orig_termios w2 = make_raw (term w) /\
     inRawMode w2 = true /\
     disableRawMode w2 = Ret tt w3 /\
     term w3 = make_raw (term w) /\
     since w2 w3 = [EIsatty true; ETcsetattr (make_raw (term w)) 0] /\
     Z.land (c_lflag (term w3)) ICANON = 0 /\
     (Z.land (c_lflag (term w)) ICANON <> 0 -> term w3 <> term w) /\
     (sane (term w) ->
      raw_of (term w) (orig_termios w2) /\ raw_of (term w) (term w3))).
Proof.
  intros E. split.
  - destruct w as [t tm fl i o r s fs tr]; cbn in E; subst.
    intros w'. destruct fl as [|[] [|[] fl]]; exec; intros X;
      first [discriminate X | injection X as <-; reflexivity].
  - intros S5.
    rewrite (bind_Ret _ _ _ _ _ (enableRawMode_ok w E (succeed_le 2 5 w ltac:(lia) S5))).
    pose proof (succeed_tl2 3 w S5) as S3.
    rewrite (enableRawMode_ok (enabled w) eq_refl (succeed_le 2 3 _ ltac:(lia) S3)).
    pose proof (succeed_tl2 1 _ S3) as S1. apply succeed_S in S1 as [F _].
    exists (enabled (enabled w)), (restored (enabled (enabled w))).
    rewrite (disableRawMode_ok (enabled (enabled w)) eq_refl eq_refl F).
    split; [reflexivity|]. split; [reflexivity|]. split; [reflexivity|].
    split; [reflexivity|]. split; [reflexivity|].
    split; [apply since_app; reflexivity|].
    change (term (restored (enabled (enabled w)))) with (make_raw (term w)).
    change (orig_termios (enabled (enabled w))) with (make_raw (term w)).
    split; [apply make_raw_noncanonical|]. split.
    + intros C X. apply C. rewrite <- X. apply make_raw_noncanonical.
    + intros Hs. split; apply make_raw_spec; exact Hs.
Qed.

(** C5. On a terminal whose two calls succeed, [enableRawMode] hands
    [tcsetattr] one configuration, which the terminal then has, and it
    is the captured one changed so: INPCK, ISTRIP and IXON off; OPOST
    and ONLCR on; CS8 on; ICANON and IEXTEN off; every other flag bit,
    ISIG among them, as captured; [c_cc[VMIN]] and [c_cc[VTIME]] zero
    and every other control character as captured. *)
Theorem C5_raw_configuration (w : world) :
  tty w = true -> succeed 2 w = true -> sane (term w) ->
  exists w' raw, enableRawMode w = Ret tt w' /\
    filter (fun e => is_tcsetattr e = true) (since w w') = [ETcsetattr raw 0] /\
    term w' = raw /\
    orig_termios w' = term w /\
    raw_of (term w) raw /\
    fits raw /\
    length (c_cc raw) = length (c_cc (term w)).
Proof.
  intros E S2 Hs. exists (enabled w), (make_raw (term w)).
  split; [apply enableRawMode_ok; assumption|].
  split; [erewrite since_app by reflexivity; reflexivity|].
  split; [reflexivity|]. split; [reflexivity|].
  split; [apply make_raw_spec; exact Hs|].
  split; [apply make_raw_fits|].
  unfold make_raw; cbn [c_cc]. rewrite !length_insert. reflexivity.
Qed.

(** ** The clock readers *)

Lemma wrap64_range (x : Z) : 0 <= wrap64 x < 2 ^ 64.
Proof. unfold wrap64. apply Z.mod_pos_bound. reflexivity. Qed.

(** C7, as the code has it. [millis] and [micros] have one way out,
    the [return]: whatever the clock did they return a value that fits
    [unsigned long] and leave the process alone, and after a failed
    clock read the value is the one computed from what the local
    [spec] happened to hold.  Nothing aborts. *)
Theorem C7_clock_readers_always_return (clk : option timespec) (junk : timespec)
    (w : world) :
  (exists ms, millis clk junk w = Ret ms w /\ 0 <= ms < 2 ^ 64) /\
  (exists us, micros clk junk w = Ret us w /\ 0 <= us < 2 ^ 64) /\
  ~ aborts (millis clk junk w) /\ ~ aborts (micros clk junk w) /\
  millis None junk w = millis (Some junk) junk w /\
  micros None junk w = micros (Some junk) junk w.
Proof.
  split; [|split].
  - eexists. split; [reflexivity|]. apply wrap64_range.
  - eexists. split; [reflexivity|]. apply wrap64_range.
  - repeat split; intros [].
Qed.

(** ** The scheduler *)

Lemma service_skip (w : world) :
  exists w1, service (Some skip) w = Ret tt w1 /\
    stdin w1 = tl (stdin w) /\
    trace w1 = trace w ++ turns 1 (stdin w) /\
    sigint w1 = sigint w /\ atexit_fns w1 = atexit_fns w.
Proof.
  destruct w as [t tm fl i o r s fs tr]. cbn [turns stdin trace sigint atexit_fns tl].
  unfold service. rewrite (bind_Ret (read _) _ _ _ _ eq_refl).
  cbn [stdin hd default from_option].
  destruct (Byte.eqb (default "000"%byte (hd None i)) "000"%byte);
    eexists; (split; [reflexivity|]); repeat split; cbn; flat;
    rewrite ?app_nil_r; reflexivity.
Qed.

Lemma service_loop_skip (n : nat) (w : world) :
  exists w', service_loop (Some skip) n w = Running w' /\
    trace w' = trace w ++ turns n (stdin w) /\
    sigint w' = sigint w /\ atexit_fns w' = atexit_fns w.
Proof.
  revert w. induction n as [|n IH]; intros w.
  - exists w. cbn. rewrite app_nil_r. auto.
  - destruct (service_skip w) as (w1 & R & I & T & Sg & A).
    destruct (IH w1) as (w' & R' & T' & Sg' & A').
    exists w'. cbn [service_loop]. rewrite (bind_Ret _ _ _ _ _ R).
    split; [exact R'|]. split; [|split; congruence].
    rewrite T', T, I. cbn [turns]. rewrite app_nil_r, <- !app_assoc. reflexivity.
Qed.





(** ** Input bytes *)

Lemma delivered_S (n : nat) (input : list (option byte)) :
  delivered (S n) input = delivered 1 input ++ delivered n (tl input).
Proof.
  unfold delivered. destruct input as [|[c|] inp]; cbn.
  - rewrite take_nil. reflexivity.
  - rewrite take_0. reflexivity.
  - rewrite take_0. reflexivity.
Qed.

(** One turn with a quiet [loop]: the insertions into the serial
    buffer are the non-null byte this turn's [read] delivered, if
    any. *)
Lemma service_quiet (body : callback) (w : world) :
  quiet body ->
  exists w1 evs, service (Some body) w = Ret tt w1 /\
    stdin w1 = tl (stdin w) /\
    trace w1 = trace w ++ evs /\
    filter (fun e => is_insertChar e = true) evs
    = EInsertChar <$> filter (fun c => nonnull c = true) (delivered 1 (stdin w)).
Proof.
  intros Hq. destruct w as [t tm fl i o r s fs tr].
  assert (Z0 : Byte.eqb "000" "000" = true) by reflexivity.
  unfold nonnull.
  destruct i as [|[c|] inp]; [| destruct (Byte.eqb c "000") eqn:B |];
    unfold service; exec; rewrite ?B, ?Z0; exec;
    (match goal with |- context [body ?x] =>
       destruct (Hq x) as (evs & Rb & F); rewrite Rb end);
    unfold log_all; exec;
    eexists _, _; (split; [reflexivity|]); (split; [reflexivity|]);
    (split; [rewrite <- !app_assoc; reflexivity|]);
    cbn [app]; rewrite ?filter_cons, !filter_app, F; cbn;
    rewrite ?B; reflexivity.
Qed.

(** C8. Over any number of turns of the service loop with a quiet
    [loop] callback, the insertions into the serial buffer are, in
    order and unchanged, the non-null bytes the reads delivered: one
    insertion for each, none for a read that delivered nothing or the
    null byte. *)
Theorem C8_bytes_forwarded_verbatim (body : callback) (n : nat) (w : world) :
  quiet body ->
  exists w', service_loop (Some body) n w = Running w' /\
    filter (fun e => is_insertChar e = true) (since w w')
    = EInsertChar <$> filter (fun c => nonnull c = true) (delivered n (stdin w)).
Proof.
  intros Hq.
  cut (exists w' evs, service_loop (Some body) n w = Running w' /\
         trace w' = trace w ++ evs /\
         filter (fun e => is_insertChar e = true) evs
         = EInsertChar <$> filter (fun c => nonnull c = true) (delivered n (stdin w))).
  { intros (w' & evs & R & T & F). exists w'. split; [exact R|].
    rewrite (since_app w w' evs T). exact F. }
  revert w. induction n as [|n IH]; intros w.
  - exists w, []. cbn. rewrite app_nil_r. auto.
  - destruct (service_quiet body w Hq) as (w1 & evs1 & R1 & I1 & T1 & F1).
    destruct (IH w1) as (w' & evs & R & T & F).
    exists w', (evs1 ++ evs). cbn [service_loop]. rewrite (bind_Ret _ _ _ _ _ R1).
    split; [exact R|]. split; [rewrite T, T1, app_assoc; reflexivity|].
    rewrite (delivered_S n (stdin w)), !filter_app, fmap_app, F1, F, I1. reflexivity.
Qed.

End Properties.

(** * Further properties of the code *)

Section Further.
Context {H : termios_h}.

(** Run a computation on a world whose fields are known, [main]
    included. *)
Ltac run :=
  cbv beta iota zeta delta
    [mbind M_bind mret M_ret isatty get modify emit next_rc tcgetattr tcsetattr
     perror exit die crash read usleep yield delay Serial_insertChar
     disableRawMode enableRawMode handleControlC call_weak signal atexit service
     run_exit_fn run_sig_fn run_call skip main __main
     log set_term set_faults set_stdin set_orig_termios set_inRawMode
     set_sigint set_atexit_fns
     tty term faults stdin orig_termios inRawMode sigint atexit_fns trace
     negb hd tl Z.eqb Pos.eqb default from_option id].

(** ** Raw twice *)

Lemma clear_idem (x m : Z) :
  wrap32 (Z.land (wrap32 (Z.land x (Z.lnot m))) (Z.lnot m))
  = wrap32 (Z.land x (Z.lnot m)).
Proof.
  apply Z.bits_inj. intros i. rewrite !testbit_clear.
  destruct (i <? 32), (Z.testbit x i), (Z.testbit m i); reflexivity.
Qed.

Lemma set_idem (x m : Z) :
  wrap32 (Z.lor (wrap32 (Z.lor x m)) m) = wrap32 (Z.lor x m).
Proof.
  apply Z.bits_inj. intros i. rewrite !testbit_set.
  destruct (i <? 32), (Z.testbit x i), (Z.testbit m i); reflexivity.
Qed.

Lemma zero_both_idem (l : list Z) (i j : nat) :
  <[j:=0]> (<[i:=0]> (<[j:=0]> (<[i:=0]> l))) = <[j:=0]> (<[i:=0]> l).
Proof.
  destruct (decide (i = j)) as [<-|N].
  - rewrite !list_insert_insert_eq. reflexivity.
  - rewrite (list_insert_insert_ne _ i j) by exact N.
    rewrite !list_insert_insert_eq. reflexivity.
Qed.

Lemma make_raw_idem (t : termios) : make_raw (make_raw t) = make_raw t.
Proof.
  unfold make_raw; cbn [c_iflag c_oflag c_cflag c_lflag c_cc].
  rewrite !clear_idem, !set_idem, zero_both_idem. reflexivity.
Qed.

(** X1. Raw mode is a fixed point: a second [enableRawMode] on a
    terminal that the first one put into raw mode applies a
    configuration equal to the one the terminal already has. *)
Theorem enable_twice_same_terminal (w : world) :
  tty w = true -> succeed 4 w = true ->
  exists w1 w2, enableRawMode w = Ret tt w1 /\ enableRawMode w1 = Ret tt w2 /\
    term w1 = make_raw (term w) /\ term w2 = term w1 /\
    since w1 w2 = [EIsatty true; ETcgetattr 0; ETcsetattr (term w1) 0] /\
    inRawMode w2 = true.
Proof.
  intros E S4. exists (enabled w), (enabled (enabled w)).
  split; [apply enableRawMode_ok; [exact E|exact (succeed_le 2 4 w ltac:(lia) S4)]|].
  split; [apply enableRawMode_ok; [reflexivity|exact (succeed_tl2 2 w S4)]|].
  split; [reflexivity|]. split; [apply make_raw_idem|].
  split; [|reflexivity].
  apply since_app. cbn [trace enabled term]. rewrite make_raw_idem. reflexivity.
Qed.

(** ** The service loop and the rest of the process *)

Lemma drop_tl {A} (n : nat) (l : list A) : drop n (tl l) = drop (S n) l.
Proof. destruct l; [apply drop_nil|reflexivity]. Qed.

Lemma service_frame (body : callback) (w : world) :
  quiet body ->
  exists evs, service (Some body) w = Ret tt (log_all evs (set_stdin (tl (stdin w)) w)).
Proof.
  intros Hq. destruct w as [t tm fl i o r s fs tr].
  assert (Z0 : Byte.eqb "000" "000" = true) by reflexivity.
  destruct i as [|[c|] inp]; [| destruct (Byte.eqb c "000") eqn:B |];
    unfold service; run; rewrite ?B, ?Z0; run;
    (match goal with |- context [body ?x] =>
       destruct (Hq x) as (evs & Rb & _); rewrite Rb end);
    unfold log_all; run; eexists;
    rewrite <- !app_assoc; reflexivity.
Qed.

Lemma service_loop_frame (body : callback) (n : nat) (w : world) :
  quiet body ->
  exists evs,
    service_loop (Some body) n w = Running (log_all evs (set_stdin (drop n (stdin w)) w)).
Proof.
  intros Hq. revert w. induction n as [|n IH]; intros w.
  - exists []. destruct w; unfold log_all; cbn. rewrite app_nil_r. reflexivity.
  - destruct (service_frame body w Hq) as (evs1 & R1).
    destruct (IH (log_all evs1 (set_stdin (tl (stdin w)) w))) as (evs & R).
    exists (evs1 ++ evs). cbn [service_loop]. rewrite (bind_Ret _ _ _ _ _ R1), R.
    unfold log_all, set_stdin; cbn. rewrite drop_tl, <- app_assoc. reflexivity.
Qed.

(** X2. With a quiet [loop] callback, [n] turns of the service loop
    take [n] reads off the input and leave everything else of the
    process as it was: the terminal and its saved settings, the flag,
    the handler and the functions registered for exit. *)
Theorem service_loop_leaves_terminal_alone (body : callback) (n : nat) (w : world) :
  quiet body ->
  exists w', service_loop (Some body) n w = Running w' /\
    stdin w' = drop n (stdin w) /\
    term w' = term w /\ orig_termios w' = orig_termios w /\
    inRawMode w' = inRawMode w /\ faults w' = faults w /\
    sigint w' = sigint w /\ atexit_fns w' = atexit_fns w.
Proof.
  intros Hq. destruct (service_loop_frame body n w Hq) as (evs & R).
  eexists. split; [exact R|]. repeat split.
Qed.

Lemma count_cons (p : event -> bool) (e : event) (evs : list event) :
  count p (e :: evs) = ((if p e then 1 else 0) + count p evs)%nat.
Proof.
  unfold count. rewrite filter_cons.
  destruct (decide (p e = true)) as [E|E].
  - rewrite E. reflexivity.
  - destruct (p e); [congruence|reflexivity].
Qed.

Lemma count_turns (n : nat) (input : list (option byte)) :
  count is_read (turns n input) = n /\
  count is_loop (turns n input) = n /\
  count is_yield (turns n input) = n /\
  (count is_insertChar (turns n input) <= n)%nat /\
  count is_terminal_call (turns n input) = 0%nat.
Proof.
  revert input. induction n as [|n IH]; intros input; [cbn; repeat split; lia|].
  destruct (IH (tl input)) as (R & L & Y & Ins & T).
  cbn [turns]. rewrite !count_app, !count_cons, R, L, Y, T.
  destruct (Byte.eqb (default "000"%byte (hd None input)) "000"%byte);
    rewrite ?count_cons; cbn; repeat split; lia.
Qed.

(** X3. With callbacks that have empty bodies, [n] turns of the
    service loop are [n] reads, [n] calls of [loop] and [n] sleeps of
    1000 microseconds, at most [n] insertions into the serial buffer,
    and no terminal call, whatever the input. *)
Theorem service_loop_counts (n : nat) (w : world) :
  exists w', service_loop (Some skip) n w = Running w' /\
    count is_read (since w w') = n /\
    count is_loop (since w w') = n /\
    count is_yield (since w w') = n /\
    (count is_insertChar (since w w') <= n)%nat /\
    count is_terminal_call (since w w') = 0%nat.
Proof.
  destruct (service_loop_skip n w) as (w' & R & T & _).
  exists w'. split; [exact R|]. rewrite (since_app w w' _ T). apply count_turns.
Qed.

(** ** From [main] to the end of the process *)

Lemma bind_Exit {A B} (m : M A) (k : A -> M B) (w w' : world) (st : Z) :
  m w = Exit st w' -> (m ≫= k) w = Exit st w'.
Proof.
  intros E. cbv beta delta [mbind M_bind]. rewrite E. reflexivity.
Qed.

Lemma registers (w : world) (k : M unit) :
  (signal FnHandleControlC;; atexit FnDisableRawMode;; k) w = k (registered w).
Proof.
  destruct w as [t tm fl i o r s fs tr]. unfold registered. run.
  rewrite <- app_assoc. reflexivity.
Qed.

Lemma succeed_third (w : world) :
  succeed 3 w = true -> hd false (tl (tl (faults w))) = false.
Proof.
  unfold succeed. destruct (faults w) as [|a [|b [|[] fl]]]; cbn; auto.
  rewrite !andb_false_r. discriminate.
Qed.

(** The process in its service loop after a start on a terminal. *)
Lemma main_serving (sb lb : callback) (n : nat) (w : world) :
  tty w = true -> succeed 2 w = true -> quiet sb -> quiet lb ->
  exists w1, main (Some sb) (Some lb) n w = Running w1 /\
    tty w1 = true /\ term w1 = make_raw (term w) /\
    faults w1 = tl (tl (faults w)) /\ orig_termios w1 = term w /\
    inRawMode w1 = true /\ sigint w1 = Some FnHandleControlC /\
    atexit_fns w1 = FnDisableRawMode :: atexit_fns w /\
    stdin w1 = drop n (stdin w).
Proof.
  intros E S2 Qs Ql. unfold main, __main. rewrite registers.
  rewrite (bind_Ret _ _ _ _ _ (enableRawMode_ok (registered w) E S2)).
  destruct (Qs (log ESetup (enabled (registered w)))) as (evs & Rs & _).
  assert (Rc : call_weak ESetup (Some sb) (enabled (registered w))
               = Ret tt (log_all evs (log ESetup (enabled (registered w))))).
  { rewrite <- Rs. reflexivity. }
  rewrite (bind_Ret _ _ _ _ _ Rc).
  destruct (service_loop_frame lb n (log_all evs (log ESetup (enabled (registered w)))) Ql)
    as (evs' & R).
  eexists. split; [exact R|]. repeat split.
Qed.





(** X4. Ctrl-C in the service loop. After a start on a terminal with
    quiet callbacks, SIGINT at any turn ends the process with status 1
    and the terminal back on the settings it had when [main] began,
    put there by one [tcsetattr]. *)
Theorem sigint_in_the_loop_restores_terminal (sb lb : callback) (n : nat) (w : world) :
  tty w = true -> succeed 3 w = true -> quiet sb -> quiet lb ->
  exists w1 w2, main (Some sb) (Some lb) n w = Running w1 /\
    term w1 = make_raw (term w) /\
    deliver_sigint w1 = Exited 1 w2 /\
    term w2 = term w /\ inRawMode w2 = false /\
    filter (fun e => is_tcsetattr e = true) (since w1 w2) = [ETcsetattr (term w) 0].
Proof.
  intros E S3 Qs Ql.
  destruct (main_serving sb lb n w E (succeed_le 2 3 w ltac:(lia) S3) Qs Ql)
    as (w1 & R & T1 & Tm1 & F1 & O1 & Fl1 & Sg1 & A1 & _).
  pose proof (succeed_third w S3) as F3.
  destruct (handleControlC_raw w1 T1 Fl1) as (wx & X & Fx & Tx & Ax & Trx).
  rewrite F1, F3, O1 in Tx, Trx.
  destruct (run_atexit_flag_down (atexit_fns wx) 1 wx Fx) as (w2 & X2 & Tr2 & Tm2 & F2).
  exists w1, w2. split; [exact R|]. split; [exact Tm1|].
  split; [unfold deliver_sigint; rewrite Sg1; cbn [run_sig_fn settle]; rewrite X; exact X2|].
  split; [rewrite Tm2; exact Tx|]. split; [exact F2|].
  erewrite since_app; [|rewrite Tr2, Trx; rewrite <- app_assoc; reflexivity].
  rewrite filter_app.
  assert (N : forall b k, filter (fun e => is_tcsetattr e = true) (repeat (EIsatty b) k) = []).
  { intros b k. induction k as [|k IH]; [reflexivity|exact IH]. }
  rewrite N, app_nil_r. reflexivity.
Qed.

Lemma service_exit (st : Z) (w : world) :
  exists evs, service (Some (exit st)) w
              = Exit st (log_all evs (set_stdin (tl (stdin w)) w)).
Proof.
  destruct w as [t tm fl i o r s fs tr].
  assert (Z0 : Byte.eqb "000" "000" = true) by reflexivity.
  destruct i as [|[c|] inp]; [| destruct (Byte.eqb c "000") eqn:B |];
    unfold service; run; rewrite ?B, ?Z0; run;
    unfold log_all; run; eexists; rewrite <- !app_assoc; reflexivity.
Qed.

(** X5. Leaving through [exit]. When the [loop] callback calls
    [exit(st)] in a process started on a terminal, the function
    registered with [atexit] puts the terminal back on the settings it
    had when [main] began and the process ends with status [st]. *)
Theorem exit_from_loop_restores_terminal (sb : callback) (st : Z) (n : nat) (w : world) :
  tty w = true -> succeed 3 w = true -> atexit_fns w = [] -> quiet sb ->
  exists w', settle (main (Some sb) (Some (exit st)) (S n) w) = Exited st w' /\
    term w' = term w /\ atexit_fns w' = [].
Proof.
  intros E S3 A Qs. unfold main, __main. rewrite registers.
  rewrite (bind_Ret _ _ _ _ _
             (enableRawMode_ok (registered w) E (succeed_le 2 3 w ltac:(lia) S3))).
  destruct (Qs (log ESetup (enabled (registered w)))) as (evs & Rs & _).
  assert (Rc : call_weak ESetup (Some sb) (enabled (registered w))
               = Ret tt (log_all evs (log ESetup (enabled (registered w))))).
  { rewrite <- Rs. reflexivity. }
  rewrite (bind_Ret _ _ _ _ _ Rc). cbn [service_loop].
  destruct (service_exit st (log_all evs (log ESetup (enabled (registered w)))))
    as (evs' & X).
  rewrite (bind_Exit _ _ _ _ _ X). cbn [settle].
  match goal with |- context [run_atexit ?fs st ?x] =>
    change fs with (FnDisableRawMode :: atexit_fns w); set (wx := x) end.
  rewrite A. cbn [run_atexit run_exit_fn].
  rewrite (disableRawMode_ok (set_atexit_fns [] wx) eq_refl eq_refl (succeed_third w S3)).
  eexists. split; [reflexivity|]. split; reflexivity.
Qed.

Lemma filter_repeat_isatty (p : event -> bool) (b : bool) (k : nat) :
  p (EIsatty b) = false ->
  filter (fun e => p e = true) (repeat (EIsatty b) k) = [].
Proof.
  intros Hp. induction k as [|k IH]; [reflexivity|].
  cbn [repeat]. rewrite filter_cons.
  destruct (decide (p (EIsatty b) = true)) as [E|E]; [congruence|exact IH].
Qed.

Lemma enableRawMode_dies (w : world) :
  tty w = true -> succeed 2 w = false ->
  exists wx evs, enableRawMode w = Exit 1 wx /\
    trace wx = trace w ++ evs /\
    term wx = term w /\ inRawMode wx = inRawMode w /\
    atexit_fns wx = atexit_fns w /\
    count is_perror evs = 1%nat /\
    count is_setup evs = 0%nat /\ count is_loop evs = 0%nat /\
    count is_read evs = 0%nat /\
    filter (fun e => is_tcsetattr e = true) evs
    = (if hd false (faults w) then [] else [ETcsetattr (make_raw (term w)) (-1)]).
Proof.
  intros E S2. destruct w as [t tm fl i o r s fs tr]; cbn in E; subst.
  unfold succeed in S2; cbn in S2.
  destruct fl as [|[] [|[] fl]]; cbn in S2; try discriminate; run;
    eexists _, _; (split; [reflexivity|]);
    (split; [cbn [trace]; rewrite <- !app_assoc; reflexivity|]);
    repeat split.
Qed.

(** X6. A start that fails. On a terminal, with the flag down, when
    [tcgetattr] or the [tcsetattr] after it fails in [enableRawMode],
    the process ends with status 1 after one message: the terminal has
    the settings it had, [setup] and [loop] are never called, nothing
    is read, and leaving makes no attempt to restore. *)
Theorem failed_start_leaves_terminal_alone (setup loop : option callback) (n : nat)
    (w : world) :
  tty w = true -> inRawMode w = false -> succeed 2 w = false ->
  exists w', settle (main setup loop n w) = Exited 1 w' /\
    term w' = term w /\ inRawMode w' = false /\
    count is_perror (since w w') = 1%nat /\
    count is_setup (since w w') = 0%nat /\
    count is_loop (since w w') = 0%nat /\
    count is_read (since w w') = 0%nat /\
    filter (fun e => is_tcsetattr e = true) (since w w')
    = (if hd false (faults w) then [] else [ETcsetattr (make_raw (term w)) (-1)]).
Proof.
  intros E F S2. unfold main, __main. rewrite registers.
  destruct (enableRawMode_dies (registered w) E S2)
    as (wx & evs & X & Tr & Tm & Fl & A & Cp & Cs & Cl & Cr & Ft).
  rewrite (bind_Exit _ _ _ _ _ X). cbn [settle].
  assert (Fx : inRawMode wx = false) by (rewrite Fl; exact F).
  destruct (run_atexit_flag_down (atexit_fns wx) 1 wx Fx) as (w' & X' & Tr' & Tm' & Fl').
  exists w'. split; [exact X'|]. split; [rewrite Tm'; exact Tm|]. split; [exact Fl'|].
  erewrite since_app;
    [|rewrite Tr', Tr; cbn [trace registered]; rewrite <- !app_assoc; reflexivity].
  rewrite !count_app, !filter_app, Cp, Cs, Cl, Cr, Ft.
  rewrite !count_repeat_isatty, filter_repeat_isatty by reflexivity.
  rewrite app_nil_r. repeat split.
Qed.

(** X7. A restoration that fails in the handler. On a terminal with
    the flag up, when the handler's [tcsetattr] fails, the failure is
    reported with [perror] and goes no further: [exit] is called once,
    the process ends with status 1, the flag is down and the terminal
    keeps the settings it had. *)
Theorem failed_restore_in_handler_still_exits (w : world) :
  tty w = true -> inRawMode w = true -> sigint w = Some FnHandleControlC ->
  hd false (faults w) = true ->
  exists w', deliver_sigint w = Exited 1 w' /\
    term w' = term w /\ inRawMode w' = false /\
    count is_exit (since w w') = 1%nat /\
    filter (fun e => is_perror e = true) (since w w')
    = [EPerror "handleControlC(): tcsetattr() failure"] /\
    filter (fun e => is_tcsetattr e = true) (since w w')
    = [ETcsetattr (orig_termios w) (-1)].
Proof.
  intros E Fl Sg Ft. unfold deliver_sigint. rewrite Sg. cbn [run_sig_fn].
  destruct (handleControlC_raw w E Fl) as (wx & X & Fx & Tx & Ax & Trx).
  rewrite Ft in Tx, Trx. rewrite X. cbn [settle].
  destruct (run_atexit_flag_down (atexit_fns wx) 1 wx Fx) as (w' & X' & Tr' & Tm' & Fl').
  exists w'. split; [exact X'|]. split; [rewrite Tm'; exact Tx|]. split; [exact Fl'|].
  erewrite since_app; [|rewrite Tr', Trx; rewrite <- app_assoc; reflexivity].
  rewrite count_app, !filter_app.
  rewrite count_repeat_isatty, !filter_repeat_isatty by reflexivity.
  rewrite !app_nil_r. repeat split.
Qed.

(** ** An invariant of the controller *)

Lemma run_call_consistent (c : call) (w : world) :
  consistent w -> consistent (world_of (run_call c w)).
Proof.
  intros I. destruct w as [[] tm fl i o [] s fs tr]; unfold consistent in *;
    cbn [inRawMode term orig_termios] in I;
    destruct c; destruct fl as [|[] [|[] fl]]; run;
    cbn [world_of inRawMode term orig_termios]; intros X;
    first [discriminate X | right; reflexivity | left; reflexivity | exact (I X)
          | exact (I eq_refl)].
Qed.

(** X8. Whatever [enableRawMode] and [disableRawMode] calls are made,
    on or off a terminal, succeeding or failing, up to the first one
    that ends in [exit]: if the flag is up afterwards, the terminal
    has the saved settings or their raw form, given that this was so
    before.  So the settings a later restoration applies are the
    terminal's own or the ones its raw form was made from. *)
Theorem controller_keeps_saved_settings_consistent (cs : list call) (w : world) :
  consistent w -> consistent (world_of (run_calls cs w)).
Proof.
  revert w. induction cs as [|c cs IH]; intros w I; [exact I|].
  pose proof (run_call_consistent c w I) as Ic.
  change (run_calls (c :: cs) w)
    with (match run_call c w with
          | Ret a w' => run_calls cs w'
          | Exit st w' => Exit st w'
          | Crash w' => Crash w'
          | Running w' => Running w'
          end).
  destruct (run_call c w) as [a w1|st w1|w1|w1]; cbn [world_of] in Ic |- *;
    [apply IH; exact Ic|exact Ic|exact Ic|exact Ic].
Qed.

(** ** The clock readers and the sleep *)

Lemma wrap64_small (x : Z) : 0 <= x < 2 ^ 64 -> wrap64 x = x.
Proof. intros B. unfold wrap64. apply Z.mod_small. exact B. Qed.

Lemma millis_steady (t junk : timespec) (w : world) :
  steady t ->
  millis (Some t) junk w = Ret (tv_sec t * 1000 + tv_nsec t / 1000000) w.
Proof.
  intros ((S0 & S1) & N0 & N1). unfold millis, clock_gettime. cbn [default from_option id].
  change (2 ^ 44) with 17592186044416 in S1.
  rewrite (wrap64_small (tv_nsec t))
    by (change (2 ^ 64) with 18446744073709551616; lia).
  rewrite wrap64_small; [reflexivity|].
  change (2 ^ 64) with 18446744073709551616.
  pose proof (Z.div_pos (tv_nsec t) 1000000 N0 ltac:(lia)).
  pose proof (Z.div_lt_upper_bound (tv_nsec t) 1000000 1000 ltac:(lia) ltac:(lia)).
  lia.
Qed.

Lemma micros_steady (t junk : timespec) (w : world) :
  steady t ->
  micros (Some t) junk w = Ret (tv_sec t * 1000000 + tv_nsec t / 1000) w.
Proof.
  intros ((S0 & S1) & N0 & N1). unfold micros, clock_gettime. cbn [default from_option id].
  change (2 ^ 44) with 17592186044416 in S1.
  rewrite (wrap64_small (tv_sec t))
    by (change (2 ^ 64) with 18446744073709551616; lia).
  rewrite Z.quot_div_nonneg by lia.
  rewrite wrap64_small; [reflexivity|].
  change (2 ^ 64) with 18446744073709551616.
  pose proof (Z.div_pos (tv_nsec t) 1000 N0 ltac:(lia)).
  pose proof (Z.div_lt_upper_bound (tv_nsec t) 1000 1000000 ltac:(lia) ltac:(lia)).
  lia.
Qed.

(** X9. On a reading the clock can give, [millis] and [micros] return
    the reading in whole milliseconds and whole microseconds, nothing
    wrapped, and the two agree: the milliseconds are the microseconds
    divided by 1000. *)
Theorem clock_readers_agree (t junk : timespec) (w : world) :
  steady t ->
  exists ms us, millis (Some t) junk w = Ret ms w /\ micros (Some t) junk w = Ret us w /\
    ms = nanos t / 1000000 /\ us = nanos t / 1000 /\ ms = us / 1000.
Proof.
  intros St. pose proof St as ((S0 & S1) & N0 & N1).
  exists (tv_sec t * 1000 + tv_nsec t / 1000000), (tv_sec t * 1000000 + tv_nsec t / 1000).
  split; [apply millis_steady; exact St|]. split; [apply micros_steady; exact St|].
  unfold nanos. repeat split; Z.div_mod_to_equations; lia.
Qed.

(** X10. Elapsed time is never under-reported: if the clock has moved
    on by at least [d] milliseconds between two readings, the two
    values of [millis] are at least [d] apart, and likewise for
    [micros] in microseconds.  With [d = 0]: neither ever goes back. *)
Theorem clock_readers_elapsed (t1 t2 junk : timespec) (d : Z) (w1 w2 : world) :
  steady t1 -> steady t2 -> 0 <= d ->
  exists ms1 ms2 us1 us2,
    millis (Some t1) junk w1 = Ret ms1 w1 /\ millis (Some t2) junk w2 = Ret ms2 w2 /\
    micros (Some t1) junk w1 = Ret us1 w1 /\ micros (Some t2) junk w2 = Ret us2 w2 /\
    (nanos t1 + d * 1000000 <= nanos t2 -> ms1 + d <= ms2) /\
    (nanos t1 + d * 1000 <= nanos t2 -> us1 + d <= us2).
Proof.
  intros St1 St2 D.
  pose proof St1 as ((A0 & A1) & B0 & B1). pose proof St2 as ((C0 & C1) & D0 & D1).
  eexists _, _, _, _.
  split; [apply millis_steady; exact St1|]. split; [apply millis_steady; exact St2|].
  split; [apply micros_steady; exact St1|]. split; [apply micros_steady; exact St2|].
  unfold nanos. split; intros L; Z.div_mod_to_equations; lia.
Qed.

(** X11. [delay(ms)] is one [usleep].  Up to 4294967 milliseconds it
    sleeps the microseconds asked for; from 4294968 on the product no
    longer fits the 32-bit parameter of [usleep] and the sleep is
    shorter than asked for. *)
Theorem delay_sleeps (ms : Z) (w : world) :
  0 <= ms < 2 ^ 64 ->
  exists us, delay ms w = Ret tt (log (EUsleep us) w) /\
    0 <= us < 2 ^ 32 /\
    (ms <= 4294967 -> us = ms * 1000) /\
    (4294968 <= ms -> us < ms * 1000).
Proof.
  intros B. exists (wrap32 (wrap64 (ms * 1000))). split; [reflexivity|].
  unfold wrap32, wrap64.
  change (2 ^ 64) with 18446744073709551616 in *.
  change (2 ^ 32) with 4294967296 in *.
  split; [apply Z.mod_pos_bound; lia|]. split; intros L.
  - rewrite (Z.mod_small (ms * 1000)) by lia. apply Z.mod_small. lia.
  - pose proof (Z.mod_pos_bound (ms * 1000 mod 18446744073709551616) 4294967296
                  ltac:(lia)). lia.
Qed.

End Further.

(** * On Linux *)

#[local] Existing Instance linux_termios_h.

Example raw_differs_from_cooked : make_raw cooked <> cooked.
Proof. discriminate. Qed.

(** C1, where the code parts from it. A process whose standard input
    is not a terminal has the flag down; SIGINT reaches
    [handleControlC], which asks [isatty] and returns: the process is
    alive afterwards, [exit] was not called. *)
Theorem C1_sigint_off_a_terminal_is_swallowed :
  sigint (serving on_pipe) = Some FnHandleControlC /\
  inRawMode (serving on_pipe) = false /\
  handleControlC (serving on_pipe) = Ret tt (log (EIsatty false) (serving on_pipe)) /\
  deliver_sigint (serving on_pipe) = Alive (log (EIsatty false) (serving on_pipe)).
Proof.
  split; [reflexivity|]. split; [reflexivity|].
  split; [apply handleControlC_notty|apply sigint_off_a_terminal]; reflexivity.
Qed.

(** C2, where the code parts from it. After [enableRawMode] and one
    [disableRawMode] that succeeded the flag is still up, and a second
    [disableRawMode] calls [tcsetattr] with the saved settings again. *)
Theorem C2_second_disable_restores_again :
  exists w1 w2,
    (enableRawMode;; disableRawMode) on_terminal = Ret tt w1 /\
    inRawMode w1 = true /\
    disableRawMode w1 = Ret tt w2 /\
    since w1 w2 = [EIsatty true; ETcsetattr cooked 0] /\
    inRawMode w2 = true.
Proof.
  exists (restored (enabled on_terminal)), (restored (restored (enabled on_terminal))).
  repeat split; vm_compute; reflexivity.
Qed.

(** Enabling and disabling on the cooked Linux terminal. *)
Lemma C3_witness :
  tty on_terminal = true /\ succeed 3 on_terminal = true /\
  exists w', (enableRawMode;; disableRawMode) on_terminal = Ret tt w' /\
    term w' = cooked.
Proof.
  split; [reflexivity|]. split; [reflexivity|].
  destruct (C3_enable_then_disable_restores on_terminal eq_refl) as [P _].
  destruct (P eq_refl) as (w' & R & T & _).
  exists w'. split; [exact R|exact T].
Defined.

(** Four calls with the input redirected. *)
Lemma C4_witness :
  tty on_pipe = false /\
  exists w', run_calls [CEnable; CDisable; CDisable; CEnable] on_pipe = Ret tt w' /\
    count is_terminal_call (since on_pipe w') = 0%nat /\
    inRawMode w' = false /\ orig_termios w' = zero_termios.
Proof.
  split; [reflexivity|].
  destruct (C4_calls_off_a_terminal_do_nothing
              [CEnable; CDisable; CDisable; CEnable] on_pipe eq_refl)
    as (w' & R & _ & N & F & O & _).
  exists w'. repeat split; assumption.
Defined.

Lemma cooked_is_sane : sane cooked.
Proof.
  unfold sane. split; [reflexivity|]. split; cbn; lia.
Defined.

(** The raw configuration of the cooked Linux terminal. *)
Lemma C5_witness :
  tty on_terminal = true /\ succeed 2 on_terminal = true /\ sane (term on_terminal) /\
  exists w' raw, enableRawMode on_terminal = Ret tt w' /\
    term w' = raw /\ raw_of cooked raw.
Proof.
  split; [reflexivity|]. split; [reflexivity|]. split; [exact cooked_is_sane|].
  destruct (C5_raw_configuration on_terminal eq_refl eq_refl cooked_is_sane)
    as (w' & raw & R & _ & T & _ & S & _ & _).
  exists w', raw. split; [exact R|]. split; [exact T|exact S].
Defined.



(** C7 as the specification has it fails: with the clock read failing
    and 7 seconds left over in the local [spec], [millis] returns 7000
    and nothing aborts. *)
Lemma C7_failed_clock_read_returns :
  millis None (Timespec 7 0) on_terminal = Ret 7000 on_terminal /\
  micros None (Timespec 7 0) on_terminal = Ret 7000000 on_terminal /\
  ~ aborts (millis None (Timespec 7 0) on_terminal) /\
  ~ aborts (micros None (Timespec 7 0) on_terminal).
Proof.
  repeat split; intros [].
Qed.

Lemma skip_is_quiet : quiet skip.
Proof.
  intros w. exists []. split; [|reflexivity].
  rewrite log_all_nil. reflexivity.
Defined.

(** Four turns over A, nothing, NUL, B. *)
Lemma C8_witness :
  quiet skip /\
  exists w', service_loop (Some skip) 4 typing = Running w' /\
    filter (fun e => is_insertChar e = true) (since typing w')
    = [EInsertChar "A"%byte; EInsertChar "B"%byte].
Proof.
  split; [exact skip_is_quiet|].
  destruct (C8_bytes_forwarded_verbatim skip 4 typing skip_is_quiet) as (w' & R & F).
  exists w'. split; [exact R|exact F].
Defined.

(** The restoring call fails in a process that is in raw mode. *)
Lemma C9_witness :
  tty failing = true /\ inRawMode failing = true /\ hd false (faults failing) = true /\
  exists w'', settle (disableRawMode failing) = Exited 1 w'' /\
    inRawMode w'' = false /\ count is_tcsetattr (since failing w'') = 1%nat.
Proof.
  split; [reflexivity|]. split; [reflexivity|]. split; [reflexivity|].
  destruct (C9_failed_restore_clears_flag_then_dies failing eq_refl eq_refl eq_refl)
    as (_ & _ & (w'' & R & F & N & _)).
  exists w''. repeat split; assumption.
Defined.

Lemma cooked_is_canonical : Z.land (c_lflag (term on_terminal)) ICANON <> 0.
Proof. discriminate. Defined.

(** Two enables and a disable on the cooked Linux terminal: the
    terminal is left raw, not cooked. *)
Lemma C10_witness :
  tty on_terminal = true /\ succeed 5 on_terminal = true /\
  Z.land (c_lflag (term on_terminal)) ICANON <> 0 /\ sane (term on_terminal) /\
  exists w2 w3, (enableRawMode;; enableRawMode) on_terminal = Ret tt w2 /\
    orig_termios w2 = make_raw cooked /\
    disableRawMode w2 = Ret tt w3 /\
    term w3 = make_raw cooked /\
    term w3 <> cooked /\
    raw_of cooked (term w3).
Proof.
  split; [reflexivity|]. split; [reflexivity|].
  split; [exact cooked_is_canonical|]. split; [exact cooked_is_sane|].
  destruct (C10_enable_overwrites_saved_settings on_terminal eq_refl) as [_ P].
  destruct (P eq_refl) as (w2 & w3 & R & O & _ & D & T & _ & _ & N & S).
  exists w2, w3. split; [exact R|]. split; [exact O|]. split; [exact D|].
  split; [exact T|]. split; [exact (N cooked_is_canonical)|].
  exact (proj2 (S cooked_is_sane)).
Defined.

(** ** Instances of the further properties *)

(** Two enables on the cooked Linux terminal. *)
Lemma enable_twice_same_terminal_witness :
  tty on_terminal = true /\ succeed 4 on_terminal = true /\
  exists w1 w2, enableRawMode on_terminal = Ret tt w1 /\
    enableRawMode w1 = Ret tt w2 /\ term w2 = term w1.
Proof.
  split; [reflexivity|]. split; [reflexivity|].
  destruct (enable_twice_same_terminal on_terminal eq_refl eq_refl)
    as (w1 & w2 & R1 & R2 & _ & T & _).
  exists w1, w2. split; [exact R1|]. split; [exact R2|exact T].
Defined.

(** Two turns over the keys A, nothing, NUL, B: two reads are gone. *)
Lemma service_loop_leaves_terminal_alone_witness :
  quiet skip /\
  exists w', service_loop (Some skip) 2 typing = Running w' /\
    stdin w' = [Some "000"%byte; Some "B"%byte] /\ term w' = cooked.
Proof.
  split; [exact skip_is_quiet|].
  destruct (service_loop_leaves_terminal_alone skip 2 typing skip_is_quiet)
    as (w' & R & I & T & _).
  exists w'. split; [exact R|]. split; [exact I|exact T].
Defined.

(** Ctrl-C three turns into the loop on the cooked Linux terminal. *)
Lemma sigint_in_the_loop_restores_terminal_witness :
  tty typing = true /\ succeed 3 typing = true /\ quiet skip /\
  exists w1 w2, main (Some skip) (Some skip) 3 typing = Running w1 /\
    term w1 = make_raw cooked /\
    deliver_sigint w1 = Exited 1 w2 /\ term w2 = cooked.
Proof.
  split; [reflexivity|]. split; [reflexivity|]. split; [exact skip_is_quiet|].
  destruct (sigint_in_the_loop_restores_terminal skip skip 3 typing eq_refl eq_refl
              skip_is_quiet skip_is_quiet)
    as (w1 & w2 & R & T1 & D & T2 & _).
  exists w1, w2. split; [exact R|]. split; [exact T1|]. split; [exact D|exact T2].
Defined.

(** [loop] calls [exit(0)] in its first turn. *)
Lemma exit_from_loop_restores_terminal_witness :
  tty on_terminal = true /\ succeed 3 on_terminal = true /\
  atexit_fns on_terminal = [] /\ quiet skip /\
  exists w', settle (main (Some skip) (Some (exit 0)) 1 on_terminal) = Exited 0 w' /\
    term w' = cooked.
Proof.
  split; [reflexivity|]. split; [reflexivity|]. split; [reflexivity|].
  split; [exact skip_is_quiet|].
  destruct (exit_from_loop_restores_terminal skip 0 0 on_terminal eq_refl eq_refl eq_refl
              skip_is_quiet)
    as (w' & R & T & _).
  exists w'. split; [exact R|exact T].
Defined.

(** [tcgetattr] fails at the start. *)
Lemma failed_start_leaves_terminal_alone_witness :
  tty no_capture = true /\ inRawMode no_capture = false /\
  succeed 2 no_capture = false /\
  exists w', settle (main (Some skip) (Some skip) 5 no_capture) = Exited 1 w' /\
    term w' = cooked /\
    filter (fun e => is_tcsetattr e = true) (since no_capture w') = [].
Proof.
  split; [reflexivity|]. split; [reflexivity|]. split; [reflexivity|].
  destruct (failed_start_leaves_terminal_alone (Some skip) (Some skip) 5 no_capture
              eq_refl eq_refl eq_refl)
    as (w' & R & T & _ & _ & _ & _ & _ & F).
  exists w'. split; [exact R|]. split; [exact T|exact F].
Defined.

(** Ctrl-C in a process in raw mode whose next terminal call fails. *)
Lemma failed_restore_in_handler_still_exits_witness :
  tty failing = true /\ inRawMode failing = true /\
  sigint failing = Some FnHandleControlC /\ hd false (faults failing) = true /\
  exists w', deliver_sigint failing = Exited 1 w' /\
    term w' = make_raw cooked /\ count is_exit (since failing w') = 1%nat.
Proof.
  split; [reflexivity|]. split; [reflexivity|]. split; [reflexivity|].
  split; [reflexivity|].
  destruct (failed_restore_in_handler_still_exits failing eq_refl eq_refl eq_refl eq_refl)
    as (w' & R & T & _ & N & _).
  exists w'. split; [exact R|]. split; [exact T|exact N].
Defined.

Lemma on_terminal_is_consistent : consistent on_terminal.
Proof. intros X. discriminate X. Defined.

(** Enable, enable, disable, disable, enable from the start. *)
Lemma controller_keeps_saved_settings_consistent_witness :
  consistent on_terminal /\
  consistent (world_of (run_calls [CEnable; CEnable; CDisable; CDisable; CEnable]
                                  on_terminal)).
Proof.
  split; [exact on_terminal_is_consistent|].
  exact (controller_keeps_saved_settings_consistent
           [CEnable; CEnable; CDisable; CDisable; CEnable] on_terminal
           on_terminal_is_consistent).
Defined.

Lemma a_reading_is_steady : steady (Timespec 12 345678901).
Proof. unfold steady; cbn. lia. Defined.

Lemma a_later_reading_is_steady : steady (Timespec 13 45678901).
Proof. unfold steady; cbn. lia. Defined.

(** 12.345678901 s after boot: 12345 ms, 12345678 us. *)
Lemma clock_readers_agree_witness :
  steady (Timespec 12 345678901) /\
  exists ms us,
    millis (Some (Timespec 12 345678901)) (Timespec 0 0) on_terminal = Ret ms on_terminal /\
    micros (Some (Timespec 12 345678901)) (Timespec 0 0) on_terminal = Ret us on_terminal /\
    ms = us / 1000.
Proof.
  split; [exact a_reading_is_steady|].
  destruct (clock_readers_agree (Timespec 12 345678901) (Timespec 0 0) on_terminal
              a_reading_is_steady)
    as (ms & us & R1 & R2 & _ & _ & E).
  exists ms, us. split; [exact R1|]. split; [exact R2|exact E].
Defined.

(** Two readings 700 ms apart. *)
Lemma clock_readers_elapsed_witness :
  steady (Timespec 12 345678901) /\ steady (Timespec 13 45678901) /\ 0 <= 700 /\
  exists ms1 ms2,
    millis (Some (Timespec 12 345678901)) (Timespec 0 0) on_terminal = Ret ms1 on_terminal /\
    millis (Some (Timespec 13 45678901)) (Timespec 0 0) on_terminal = Ret ms2 on_terminal /\
    ms1 + 700 <= ms2.
Proof.
  split; [exact a_reading_is_steady|]. split; [exact a_later_reading_is_steady|].
  split; [lia|].
  destruct (clock_readers_elapsed (Timespec 12 345678901) (Timespec 13 45678901)
              (Timespec 0 0) 700 on_terminal on_terminal
              a_reading_is_steady a_later_reading_is_steady ltac:(lia))
    as (ms1 & ms2 & us1 & us2 & R1 & R2 & _ & _ & L & _).
  exists ms1, ms2. split; [exact R1|]. split; [exact R2|].
  apply L. unfold nanos; cbn. lia.
Defined.

(** A quarter of a second. *)
Lemma delay_sleeps_witness :
  0 <= 250 < 2 ^ 64 /\
  exists us, delay 250 on_pipe = Ret tt (log (EUsleep us) on_pipe) /\ us = 250000.
Proof.
  split; [split; [lia|reflexivity]|].
  destruct (delay_sleeps 250 on_pipe ltac:(split; [lia|reflexivity]))
    as (us & R & _ & E & _).
  exists us. split; [exact R|]. apply E. lia.
Defined.
